(** * WrappedDocument: the wrap-offset cache of a text document

    A shallow embedding of [src/textual/document/_wrapped_document.py].

    The class keeps, for every logical line of a document, the list of
    offsets at which that line is broken when it is displayed at a given
    cell width.  The table is rebuilt as a whole by [wrap], patched after an
    edit by [refresh_range], and queried by [offset_to_line_index],
    [get_offsets] and the [lines] property.

    Python integers are [Z]; Python lists are [list]; [str] is [string];
    a raised exception is the [Raise] branch of [result]. *)

From Stdlib Require Import ZArith String Ascii Lia.
From stdpp Require Import base list.

Local Open Scope Z_scope.

(** ** Exceptions and results *)

Inductive exception : Type :=
| ValueError
| IndexError.

Inductive result (A : Type) : Type :=
| Ok (a : A)
| Raise (e : exception).

Arguments Ok {A} a.
Arguments Raise {A} e.

#[global] Instance result_ret : MRet result := fun A a => Ok a.

#[global] Instance result_bind : MBind result := fun A B k r =>
  match r with
  | Ok a => k a
  | Raise e => Raise e
  end.

(** A [for] loop whose body may raise: the accumulator is threaded through
    the items from left to right and the first exception ends the loop. *)
Fixpoint for_each {A S : Type} (body : S -> A -> result S)
    (items : list A) (acc : S) : result S :=
  match items with
  | [] => Ok acc
  | item :: rest => acc' ← body acc item; for_each body rest acc'
  end.

(** ** Python sequence primitives *)

Module Py.

Definition len {A : Type} (l : list A) : Z := Z.of_nat (length l).

(** How a slice bound is normalised against a sequence of length [n]:
    a negative bound counts from the end, and the result is clamped to
    [0 .. n]. *)
Definition slice_index (n i : Z) : Z :=
  if i <? 0 then Z.max 0 (i + n) else Z.min i n.

(** [l[lo:hi]]; never raises. *)
Definition getslice {A : Type} (l : list A) (lo hi : Z) : list A :=
  let a := slice_index (len l) lo in
  let b := slice_index (len l) hi in
  take (Z.to_nat (b - a)) (drop (Z.to_nat a) l).

(** [l[lo:hi] = v] on a list; never raises.  When the normalised upper
    bound lies below the lower one, nothing is removed and [v] is
    inserted at the lower bound. *)
Definition setslice {A : Type} (l : list A) (lo hi : Z) (v : list A) : list A :=
  let a := slice_index (len l) lo in
  let b := slice_index (len l) hi in
  let b := if b <? a then a else b in
  take (Z.to_nat a) l ++ v ++ drop (Z.to_nat b) l.

(** [l[i]]; raises [IndexError] out of range. *)
Definition getitem {A : Type} (l : list A) (i : Z) : result A :=
  let j := if i <? 0 then i + len l else i in
  if (j <? 0) || (len l <=? j) then Raise IndexError
  else match l !! Z.to_nat j with
       | Some x => Ok x
       | None => Raise IndexError
       end.

(** [enumerate(l, start)]. *)
Fixpoint enumerate {A : Type} (l : list A) (start : Z) : list (Z * A) :=
  match l with
  | [] => []
  | x :: rest => (start, x) :: enumerate rest (start + 1)
  end.

(** [s[lo:hi]] on a [str]. *)
Definition str_slice (s : string) (lo hi : Z) : string :=
  string_of_list_ascii (getslice (list_ascii_of_string s) lo hi).

Definition str_len (s : string) : Z := len (list_ascii_of_string s).

(** [zip(l1, l2)]. *)
Definition zip {A B : Type} (l1 : list A) (l2 : list B) : list (A * B) :=
  combine l1 l2.

End Py.

(** ** External collaborators *)

(** [rich._wrap.divide_line(text, width)]: the line-splitting algorithm.  It
    is not part of this module; the cache only stores what it returns.  It is
    a pure function of the text and the width. *)
Class LineSplitter : Type :=
  divide_line : string -> Z -> list Z.

(** [textual.document._document.Location]: a [(row, column)] pair. *)
Definition Location : Type := (Z * Z)%type.

(** [textual.document._document.DocumentBase], as far as it is read here:
    its [lines] property. *)
Module DocumentBase.
Record t : Type := { lines : list string }.
End DocumentBase.

(** Modelled from the spec: [rich.text.Text(line).divide(offsets)] followed by
    [.plain] on every section is not part of this repository.  The spec
    describes it as cutting the text at the offsets, which are partition
    points: the sections are the slices of the text between consecutive points
    of [0, *offsets, len(text)]. *)
Definition Text_divide (text : string) (offsets : list Z) : list string :=
  let divide_offsets := 0 :: offsets ++ [Py.str_len text] in
  (fun '(start, end_) => Py.str_slice text start end_)
    <$> Py.zip divide_offsets (tail divide_offsets).

(** ** The class *)

Module WrappedDocument.

Record t : Type := {
  _document : DocumentBase.t;
  _width : Z;
  _wrap_offsets : list (list Z);
  _offset_to_document_line : list Z
}.

(** The document is owned elsewhere and the instance only holds a reference
    to it, so an edit made by the owner is visible through [_document]
    while the cached table stays as it was. *)
Definition document_edited (new_document : DocumentBase.t) (self : t) : t :=
  {| _document := new_document;
     _width := _width self;
     _wrap_offsets := _wrap_offsets self;
     _offset_to_document_line := _offset_to_document_line self |}.

Definition set_wrap_offsets (new_wrap_offsets : list (list Z)) (self : t) : t :=
  {| _document := _document self;
     _width := _width self;
     _wrap_offsets := new_wrap_offsets;
     _offset_to_document_line := _offset_to_document_line self |}.

(** [__init__] *)
Definition __init__ (document : DocumentBase.t) (width : Z) : t :=
  {| _document := document;
     _width := width;
     _wrap_offsets := [];
     _offset_to_document_line := [] |}.

(** The scan of [offset_to_line_index]: [items] is what is left of
    [enumerate(self._wrap_offsets)], [current_offset] the running height. *)
Fixpoint offset_scan (offset current_offset : Z)
    (items : list (Z * list Z)) : result Z :=
  match items with
  | [] => Raise ValueError
  | (line_index, line_offsets) :: rest =>
      let wrapped_line_height := Py.len line_offsets + 1 in
      let current_offset := current_offset + wrapped_line_height in
      if current_offset >? offset then Ok line_index
      else offset_scan offset current_offset rest
  end.

Definition offset_to_line_index (self : t) (offset : Z) : result Z :=
  if offset <? 0 then Raise ValueError
  else offset_scan offset 0 (Py.enumerate (_wrap_offsets self) 0).

Definition get_offsets (self : t) (line_index : Z) : result (list Z) :=
  let wrap_offsets := _wrap_offsets self in
  let out_of_bounds :=
    (line_index <? 0) || (line_index >=? Py.len wrap_offsets) in
  if out_of_bounds then Raise ValueError
  else Py.getitem wrap_offsets line_index.

(** The [lines] property. *)
Definition lines (self : t) : result (list (list string)) :=
  for_each
    (fun wrapped_lines '(line_index, line) =>
       offsets ← Py.getitem (_wrap_offsets self) line_index;
       let divided := Text_divide line offsets in
       Ok (wrapped_lines ++ [divided]))
    (Py.enumerate (DocumentBase.lines (_document self)) 0)
    [].

Section Splitting.
Context `{LineSplitter}.

Definition wrap (self : t) : result t :=
  let width := _width self in
  let new_wrap_offsets :=
    fold_left
      (fun new_wrap_offsets line => new_wrap_offsets ++ [divide_line line width])
      (DocumentBase.lines (_document self))
      [] in
  Ok (set_wrap_offsets new_wrap_offsets self).

Definition refresh_range (self : t) (start old_end new_end : Location)
    : result t :=
  let '(start_row, _) := start in
  let '(end_row, _) := new_end in
  let new_lines :=
    Py.getslice (DocumentBase.lines (_document self)) start_row (end_row + 2) in
  let new_wrap_offsets :=
    fold_left
      (fun new_wrap_offsets '(line_index, line) =>
         let wrap_offsets := divide_line line (_width self) in
         new_wrap_offsets ++ [wrap_offsets])
      (Py.enumerate new_lines start_row)
      [] in
  let '(old_end_row, _) := old_end in
  Ok (set_wrap_offsets
        (Py.setslice (_wrap_offsets self) start_row old_end_row new_wrap_offsets)
        self).

End Splitting.

End WrappedDocument.


(** ** Vocabulary of the specification *)

(** Visual height of a logical line: one more than its number of offsets. *)
Definition line_height (line_offsets : list Z) : Z :=
  Py.len line_offsets + 1.

(** Total visual height of a table. *)
Definition visual_height (table : list (list Z)) : Z :=
  foldr (fun line_offsets acc => line_height line_offsets + acc) 0 table.

(** Sum of the heights of the first [k] lines, the prefix sum [h(0..k-1)]. *)
Definition height_before (table : list (list Z)) (k : nat) : Z :=
  visual_height (take k table).

(** Number of logical lines of the document an instance looks at. *)
Definition line_count (self : WrappedDocument.t) : Z :=
  Py.len (DocumentBase.lines (WrappedDocument._document self)).

(** The offsets of one entry are partition points when they are
    non-negative and never decrease. *)
Fixpoint ascending_from (low : Z) (offsets : list Z) : bool :=
  match offsets with
  | [] => true
  | o :: rest => (low <=? o) && ascending_from o rest
  end.

Definition ascending (offsets : list Z) : bool := ascending_from 0 offsets.

(** A splitter to run the scenarios of the specification with: it breaks a
    line after every [width] characters, so that ["hello world"] at width 5
    gives [[5; 10]] and ["foo"] gives [[]]; width 0 never wraps. *)
Definition chop_line (text : string) (width : Z) : list Z :=
  if width <=? 0 then []
  else (fun k => k * width) <$> seqZ 1 ((Py.str_len text - 1) `div` width).

Definition ChopSplitter : LineSplitter := chop_line.

Definition document (text_lines : list string) : DocumentBase.t :=
  {| DocumentBase.lines := text_lines |}.

Definition instance (text_lines : list string) (width : Z)
    (table : list (list Z)) : WrappedDocument.t :=
  {| WrappedDocument._document := document text_lines;
     WrappedDocument._width := width;
     WrappedDocument._wrap_offsets := table;
     WrappedDocument._offset_to_document_line := [] |}.

(** The scenario of the specification: two lines wrapped at width 5, then a
    newline typed at column 5 of the first line. *)
Definition hello_lines : list string := ["hello world"; "foo"]%string.
Definition hello_split_lines : list string := ["hello"; " world"; "foo"]%string.
Definition hello_wrapped : WrappedDocument.t :=
  instance hello_lines 5 [[5; 10]; []].

(** An edit inside one row: ["world"] on row 0 overwritten by ["there"]. *)
Definition three_lines : list string := ["hello world"; "foo"; "bar"]%string.
Definition three_lines_edited : list string := ["hello there"; "foo"; "bar"]%string.
Definition three_wrapped : WrappedDocument.t :=
  instance three_lines 5 [[5; 10]; []; []].

(** ** Sequence primitives *)

Section Sequences.
Context {A : Type}.
Implicit Types (l v : list A) (lo hi : Z).

Lemma slice_index_nonneg n i :
  0 <= n -> 0 <= i -> Py.slice_index n i = Z.min i n.
Proof.
  intros _ Hi. unfold Py.slice_index.
  destruct (Z.ltb_spec i 0); [lia | reflexivity].
Qed.

Lemma getslice_nonneg l lo hi :
  0 <= lo -> 0 <= hi ->
  Py.getslice l lo hi = take (Z.to_nat hi - Z.to_nat lo) (drop (Z.to_nat lo) l).
Proof.
  intros Hlo Hhi. unfold Py.getslice, Py.len.
  rewrite !slice_index_nonneg by lia.
  destruct (Z.le_gt_cases lo (Z.of_nat (length l))) as [Hin | Hout].
  - rewrite (Z.min_l lo) by lia.
    destruct (Z.le_gt_cases hi (Z.of_nat (length l))) as [Hin' | Hout'].
    + rewrite Z.min_l by lia. f_equal. lia.
    + rewrite Z.min_r by lia.
      rewrite !take_ge; [reflexivity | |]; rewrite length_drop; lia.
  - rewrite !drop_ge by lia. by rewrite !take_nil.
Qed.

Lemma setslice_nonneg l lo hi v :
  0 <= lo -> 0 <= hi ->
  Py.setslice l lo hi v =
    take (Z.to_nat lo) l ++ v ++ drop (Z.to_nat (Z.max lo hi)) l.
Proof.
  intros Hlo Hhi. unfold Py.setslice, Py.len.
  rewrite !slice_index_nonneg by lia.
  set (n := Z.of_nat (length l)).
  assert (Htake : take (Z.to_nat (Z.min lo n)) l = take (Z.to_nat lo) l).
  { destruct (Z.le_gt_cases lo n); [by rewrite Z.min_l by lia |].
    rewrite Z.min_r by lia. rewrite !take_ge; [done | |]; subst n; lia. }
  rewrite Htake. do 2 f_equal.
  destruct (Z.ltb_spec (Z.min hi n) (Z.min lo n)).
  - destruct (Z.le_gt_cases (Z.max lo hi) n).
    + f_equal. lia.
    + rewrite !drop_ge; [done | |]; subst n; lia.
  - destruct (Z.le_gt_cases (Z.max lo hi) n).
    + f_equal. lia.
    + rewrite !drop_ge; [done | |]; subst n; lia.
Qed.

Lemma getitem_in_range l i :
  0 <= i < Py.len l ->
  exists x, l !! Z.to_nat i = Some x /\ Py.getitem l i = Ok x.
Proof.
  intros Hi. unfold Py.getitem, Py.len in *.
  assert (Hneg : (i <? 0) = false) by lia.
  assert (Hlt : (Z.of_nat (length l) <=? i) = false) by lia.
  cbv zeta. rewrite Hneg. cbv iota. rewrite Hneg, Hlt. simpl.
  destruct (lookup_lt_is_Some_2 l (Z.to_nat i)) as [x Hx]; [lia |].
  exists x. rewrite Hx. split; reflexivity.
Qed.

Lemma getitem_at_len_or_beyond l i :
  Py.len l <= i -> Py.getitem l i = Raise IndexError.
Proof.
  intros Hi. unfold Py.getitem, Py.len in *.
  assert (Hneg : (i <? 0) = false) by lia.
  assert (Hge : (Z.of_nat (length l) <=? i) = true) by lia.
  cbv zeta. rewrite Hneg. cbv iota. by rewrite Hneg, Hge.
Qed.

Lemma enumerate_length l start : length (Py.enumerate l start) = length l.
Proof. revert start. induction l as [| x l IH]; intros; simpl; [done | by rewrite IH]. Qed.

End Sequences.

(** The two accumulating loops of the class build the image of the lines
    under the splitter. *)
Lemma append_loop_map {A B : Type} (f : A -> B) (items : list A) (acc : list B) :
  fold_left (fun acc x => acc ++ [f x]) items acc = acc ++ (f <$> items).
Proof.
  revert acc. induction items as [| x items IH]; intros acc; simpl.
  - by rewrite app_nil_r.
  - rewrite IH. by rewrite <- app_assoc.
Qed.

Lemma append_loop_enumerate {A B : Type} (f : A -> B) (items : list A)
    (start : Z) (acc : list B) :
  fold_left (fun acc '(_, x) => acc ++ [f x]) (Py.enumerate items start) acc
  = acc ++ (f <$> items).
Proof.
  revert start acc. induction items as [| x items IH]; intros start acc; simpl.
  - by rewrite app_nil_r.
  - rewrite IH. by rewrite <- app_assoc.
Qed.

(** ** The full wrap *)

Section Wrap.
Context `{LineSplitter}.
Implicit Types self : WrappedDocument.t.

(** [wrap] always succeeds, and stores the splitter's answer for every line
    of the document, in document order. *)
Lemma wrap_table self :
  WrappedDocument.wrap self =
    Ok (WrappedDocument.set_wrap_offsets
          ((fun line => divide_line line (WrappedDocument._width self))
             <$> DocumentBase.lines (WrappedDocument._document self))
          self).
Proof. unfold WrappedDocument.wrap. cbv zeta. by rewrite append_loop_map. Qed.

(** After [wrap] the table has one entry per logical line, whatever the
    document and the width. *)
Lemma wrap_length self :
  exists self',
    WrappedDocument.wrap self = Ok self' /\
    Py.len (WrappedDocument._wrap_offsets self') = line_count self'.
Proof.
  eexists. split; [apply wrap_table |].
  unfold line_count, Py.len. simpl. by rewrite length_fmap.
Qed.

(** C7: [wrap] is idempotent.  The splitter being a function of the text and
    the width, a first call succeeds and a second call on the state it left,
    with the document and the width unchanged, leaves that very state; so
    does any number of further calls. *)
Theorem wrap_idempotent self :
  exists self',
    WrappedDocument.wrap self = Ok self' /\
    WrappedDocument.wrap self' = Ok self' /\
    (forall calls : nat,
       Nat.iter calls (fun r => r ≫= WrappedDocument.wrap) (WrappedDocument.wrap self)
       = WrappedDocument.wrap self).
Proof.
  eexists. split; [apply wrap_table |].
  assert (Hagain :
    WrappedDocument.wrap
      (WrappedDocument.set_wrap_offsets
         ((fun line => divide_line line (WrappedDocument._width self))
            <$> DocumentBase.lines (WrappedDocument._document self)) self)
    = Ok (WrappedDocument.set_wrap_offsets
         ((fun line => divide_line line (WrappedDocument._width self))
            <$> DocumentBase.lines (WrappedDocument._document self)) self)).
  { rewrite wrap_table. reflexivity. }
  split; [exact Hagain |].
  induction calls as [| calls IH]; [reflexivity |].
  simpl. rewrite IH, wrap_table. simpl. exact Hagain.
Qed.

End Wrap.

(** ** Looking up a line's offsets *)

Section GetOffsets.
Implicit Types self : WrappedDocument.t.

Lemma get_offsets_in_range self line_index :
  0 <= line_index < Py.len (WrappedDocument._wrap_offsets self) ->
  exists entry,
    WrappedDocument._wrap_offsets self !! Z.to_nat line_index = Some entry /\
    WrappedDocument.get_offsets self line_index = Ok entry.
Proof.
  intros Hin. unfold WrappedDocument.get_offsets. cbv zeta.
  assert (Hneg : (line_index <? 0) = false) by lia.
  assert (Hlt : (line_index >=? Py.len (WrappedDocument._wrap_offsets self)) = false)
    by (rewrite Z.geb_leb; lia).
  rewrite Hneg, Hlt. simpl. by apply getitem_in_range.
Qed.

Lemma get_offsets_out_of_range self line_index :
  line_index < 0 \/ Py.len (WrappedDocument._wrap_offsets self) <= line_index ->
  WrappedDocument.get_offsets self line_index = Raise ValueError.
Proof.
  intros Hout. unfold WrappedDocument.get_offsets. cbv zeta.
  destruct (Z.ltb_spec line_index 0); [reflexivity |].
  assert (Hge : (line_index >=? Py.len (WrappedDocument._wrap_offsets self)) = true)
    by (rewrite Z.geb_leb; lia).
  by rewrite Hge.
Qed.

(** C6: [get_offsets] returns the stored entry for a line index inside
    [0, table.length); it raises (the spec's RangeError is the code's
    [ValueError]) exactly when the index is outside that range, and so it
    does at [-1] and at [table.length]. *)
Theorem get_offsets_spec self :
  let table := WrappedDocument._wrap_offsets self in
  (forall line_index, 0 <= line_index < Py.len table ->
     exists entry,
       table !! Z.to_nat line_index = Some entry /\
       WrappedDocument.get_offsets self line_index = Ok entry) /\
  (forall line_index,
     WrappedDocument.get_offsets self line_index = Raise ValueError <->
     (line_index < 0 \/ Py.len table <= line_index)) /\
  (forall line_index,
     (exists e, WrappedDocument.get_offsets self line_index = Raise e) <->
     (line_index < 0 \/ Py.len table <= line_index)) /\
  WrappedDocument.get_offsets self (-1) = Raise ValueError /\
  WrappedDocument.get_offsets self (Py.len table) = Raise ValueError.
Proof.
  cbv zeta.
  assert (Hin := get_offsets_in_range self).
  assert (Hout := get_offsets_out_of_range self).
  assert (Hdec : forall line_index,
    (exists e, WrappedDocument.get_offsets self line_index = Raise e) ->
    line_index < 0 \/ Py.len (WrappedDocument._wrap_offsets self) <= line_index).
  { intros line_index [e He].
    destruct (Z.lt_ge_cases line_index 0) as [? | Hge]; [by left |].
    destruct (Z.lt_ge_cases line_index (Py.len (WrappedDocument._wrap_offsets self)))
      as [Hlt | ?]; [| by right].
    destruct (Hin line_index) as (entry & _ & Hok); [lia |]. congruence. }
  split; [exact Hin |].
  split; [intros line_index; split |].
  - intros Hraise. apply Hdec. by exists ValueError.
  - apply Hout.
  - split; [intros line_index; split |].
    + apply Hdec.
    + intros Hrange. exists ValueError. by apply Hout.
    + split; apply Hout; [left | right]; lia.
Qed.

End GetOffsets.

(** ** From a visual offset to a logical line *)

Section OffsetLocator.
Implicit Types (self : WrappedDocument.t) (table : list (list Z)).

Lemma line_height_pos line_offsets : 0 < line_height line_offsets.
Proof. unfold line_height, Py.len. lia. Qed.

Lemma visual_height_nonneg table : 0 <= visual_height table.
Proof.
  induction table as [| entry table IH]; simpl; [lia |].
  pose proof (line_height_pos entry). lia.
Qed.

Lemma height_before_0 table : height_before table 0 = 0.
Proof. reflexivity. Qed.

Lemma height_before_cons entry table k :
  height_before (entry :: table) (S k) = line_height entry + height_before table k.
Proof. reflexivity. Qed.

Lemma height_before_all table : height_before table (length table) = visual_height table.
Proof. unfold height_before. by rewrite firstn_all. Qed.

(** The prefix sums never decrease with the line index, and grow strictly
    inside the table. *)
Lemma height_before_mono table j k :
  (j <= k)%nat -> height_before table j <= height_before table k.
Proof.
  revert j k. induction table as [| entry table IH]; intros j k Hjk.
  - unfold height_before. rewrite !take_nil. lia.
  - destruct j as [| j]; destruct k as [| k]; try lia.
    + rewrite height_before_0, height_before_cons.
      pose proof (line_height_pos entry).
      pose proof (visual_height_nonneg (take k table)).
      unfold height_before. lia.
    + rewrite !height_before_cons. specialize (IH j k). lia.
Qed.

Lemma height_before_step table k :
  (k < length table)%nat -> height_before table k < height_before table (S k).
Proof.
  revert k. induction table as [| entry table IH]; intros k Hk; simpl in Hk; [lia |].
  destruct k as [| k].
  - rewrite height_before_0, height_before_cons, height_before_0.
    pose proof (line_height_pos entry). lia.
  - rewrite !height_before_cons. specialize (IH k). lia.
Qed.

(** The scan, started at line [start] with running height [current_offset],
    stops at the first line whose accumulated height exceeds the offset. *)
Lemma offset_scan_found table : forall start current_offset offset,
  current_offset <= offset < current_offset + visual_height table ->
  exists i : nat,
    WrappedDocument.offset_scan offset current_offset (Py.enumerate table start)
      = Ok (start + Z.of_nat i) /\
    (i < length table)%nat /\
    current_offset + height_before table i <= offset
      < current_offset + height_before table (S i).
Proof.
  induction table as [| entry table IH]; intros start current_offset offset Hoff.
  - simpl in Hoff. lia.
  - simpl. fold (line_height entry).
    destruct (Z.gtb_spec (current_offset + line_height entry) offset) as [Hhit | Hmiss].
    + exists 0%nat. rewrite Z.add_0_r. split; [reflexivity |].
      split; [simpl; lia |].
      rewrite height_before_0, height_before_cons, height_before_0. lia.
    + destruct (IH (start + 1) (current_offset + line_height entry) offset)
        as (i & Hrun & Hlen & Hbounds).
      { simpl in Hoff. lia. }
      exists (S i). rewrite Hrun. split; [f_equal; lia |].
      split; [simpl; lia |].
      rewrite !height_before_cons. lia.
Qed.

Lemma offset_scan_exhausted table : forall start current_offset offset,
  current_offset + visual_height table <= offset ->
  WrappedDocument.offset_scan offset current_offset (Py.enumerate table start)
    = Raise ValueError.
Proof.
  induction table as [| entry table IH]; intros start current_offset offset Hoff.
  - reflexivity.
  - simpl. fold (line_height entry). simpl in Hoff.
    pose proof (visual_height_nonneg table).
    destruct (Z.gtb_spec (current_offset + line_height entry) offset); [lia |].
    apply IH. lia.
Qed.

Lemma offset_to_line_index_in_range self offset :
  0 <= offset < visual_height (WrappedDocument._wrap_offsets self) ->
  exists i : nat, WrappedDocument.offset_to_line_index self offset = Ok (Z.of_nat i).
Proof.
  intros Hoff. unfold WrappedDocument.offset_to_line_index.
  assert (Hneg : (offset <? 0) = false) by lia. rewrite Hneg.
  destruct (offset_scan_found (WrappedDocument._wrap_offsets self) 0 0 offset)
    as (i & Hrun & _); [lia |].
  exists i. by rewrite Hrun, Z.add_0_l.
Qed.

(** C4: for an offset inside the visual height of the table,
    [offset_to_line_index] returns a line index [i] of the table with
    [prefix(i-1) <= offset < prefix(i)], where [prefix(i)] is the sum of the
    heights of lines [0..i]; it is the smallest index whose prefix sum
    exceeds the offset and the only one that brackets it. *)
Theorem offset_to_line_index_locates self offset :
  let table := WrappedDocument._wrap_offsets self in
  0 <= offset < visual_height table ->
  exists i : nat,
    WrappedDocument.offset_to_line_index self offset = Ok (Z.of_nat i) /\
    (i < length table)%nat /\
    height_before table i <= offset < height_before table (S i) /\
    (forall j : nat, offset < height_before table (S j) -> (i <= j)%nat) /\
    (forall j : nat, (j < length table)%nat ->
       height_before table j <= offset < height_before table (S j) -> j = i).
Proof.
  cbv zeta. intros Hoff. unfold WrappedDocument.offset_to_line_index.
  assert (Hneg : (offset <? 0) = false) by lia. rewrite Hneg.
  destruct (offset_scan_found (WrappedDocument._wrap_offsets self) 0 0 offset)
    as (i & Hrun & Hlen & Hbounds); [lia |].
  exists i. rewrite Hrun, Z.add_0_l. split; [reflexivity |].
  split; [exact Hlen |]. split; [lia |].
  assert (Hsmallest : forall j : nat,
    offset < height_before (WrappedDocument._wrap_offsets self) (S j) -> (i <= j)%nat).
  { intros j Hj. destruct (Nat.le_gt_cases i j) as [? | Hlt]; [done |].
    pose proof (height_before_mono (WrappedDocument._wrap_offsets self) (S j) i). lia. }
  split; [exact Hsmallest |].
  intros j _ [Hlow Hhigh]. apply Nat.le_antisymm; [| by apply Hsmallest].
  destruct (Nat.le_gt_cases j i) as [? | Hlt]; [done |].
  pose proof (height_before_mono (WrappedDocument._wrap_offsets self) (S i) j). lia.
Qed.

(** C5: [offset_to_line_index] raises (the spec's RangeError is the code's
    [ValueError]) exactly when the offset is negative or at or beyond the
    total visual height; it does so at [-1] and at the total height, and no
    index is returned in place of the error. *)
Theorem offset_to_line_index_raises self :
  let table := WrappedDocument._wrap_offsets self in
  (forall offset,
     WrappedDocument.offset_to_line_index self offset = Raise ValueError <->
     (offset < 0 \/ visual_height table <= offset)) /\
  (forall offset,
     (exists e, WrappedDocument.offset_to_line_index self offset = Raise e) <->
     (offset < 0 \/ visual_height table <= offset)) /\
  WrappedDocument.offset_to_line_index self (-1) = Raise ValueError /\
  WrappedDocument.offset_to_line_index self (visual_height table) = Raise ValueError.
Proof.
  cbv zeta.
  assert (Hout : forall offset,
    offset < 0 \/ visual_height (WrappedDocument._wrap_offsets self) <= offset ->
    WrappedDocument.offset_to_line_index self offset = Raise ValueError).
  { intros offset Hrange. unfold WrappedDocument.offset_to_line_index.
    destruct (Z.ltb_spec offset 0); [reflexivity |].
    apply offset_scan_exhausted. lia. }
  assert (Hdec : forall offset,
    (exists e, WrappedDocument.offset_to_line_index self offset = Raise e) ->
    offset < 0 \/ visual_height (WrappedDocument._wrap_offsets self) <= offset).
  { intros offset [e He].
    destruct (Z.lt_ge_cases offset 0) as [? | Hge]; [by left |].
    destruct (Z.lt_ge_cases offset (visual_height (WrappedDocument._wrap_offsets self)))
      as [Hlt | ?]; [| by right].
    destruct (offset_to_line_index_in_range self offset) as (i & Hok); [lia |].
    congruence. }
  split; [intros offset; split |].
  - intros Hraise. apply Hdec. by exists ValueError.
  - apply Hout.
  - split; [intros offset; split |].
    + apply Hdec.
    + intros Hrange. exists ValueError. by apply Hout.
    + split; apply Hout; [left | right]; lia.
Qed.

End OffsetLocator.

(** ** The incremental rewrap *)

Section RefreshRange.
Context `{LineSplitter}.
Implicit Types (self : WrappedDocument.t) (start old_end new_end : Location).

(** What [refresh_range] computes for non-negative rows, with the slices
    written as [take] and [drop]. *)
Lemma refresh_range_table self start old_end new_end :
  0 <= start.1 -> 0 <= old_end.1 -> 0 <= new_end.1 ->
  WrappedDocument.refresh_range self start old_end new_end =
    Ok (WrappedDocument.set_wrap_offsets
          (take (Z.to_nat start.1) (WrappedDocument._wrap_offsets self)
           ++ ((fun line => divide_line line (WrappedDocument._width self))
                 <$> take (Z.to_nat (new_end.1 + 2) - Z.to_nat start.1)
                       (drop (Z.to_nat start.1)
                          (DocumentBase.lines (WrappedDocument._document self))))
           ++ drop (Z.to_nat (Z.max start.1 old_end.1))
                (WrappedDocument._wrap_offsets self))
          self).
Proof.
  destruct start as [start_row c1], old_end as [old_end_row c2],
    new_end as [end_row c3]. simpl. intros Hs Ho He.
  unfold WrappedDocument.refresh_range.
  rewrite (append_loop_enumerate
             (fun line => divide_line line (WrappedDocument._width self))).
  rewrite getslice_nonneg, setslice_nonneg by lia. reflexivity.
Qed.

(** C3: for non-negative rows, [refresh_range] computes one new entry for
    every row of the inclusive range
    [start.row .. min(new_end.row + 1, line_count - 1)], the entry of a row
    being the splitter's answer for the document's current line at the
    current width, and the table stored in the instance afterwards is the
    old one with the entries of [start.row, old_end.row) replaced by the new
    entries ([old_end.row] is exclusive; nothing is removed when it does not
    exceed [start.row]); the document and the width are as before. *)
Theorem refresh_range_recomputes self start old_end new_end :
  let doc_lines := DocumentBase.lines (WrappedDocument._document self) in
  let table := WrappedDocument._wrap_offsets self in
  let last_row := Z.min (new_end.1 + 1) (line_count self - 1) in
  0 <= start.1 -> 0 <= old_end.1 -> 0 <= new_end.1 ->
  exists self' new_entries,
    WrappedDocument.refresh_range self start old_end new_end = Ok self' /\
    WrappedDocument._wrap_offsets self' =
      take (Z.to_nat start.1) table
      ++ new_entries
      ++ drop (Z.to_nat (Z.max start.1 old_end.1)) table /\
    WrappedDocument._document self' = WrappedDocument._document self /\
    WrappedDocument._width self' = WrappedDocument._width self /\
    Py.len new_entries = Z.max 0 (last_row - start.1 + 1) /\
    (forall row, start.1 <= row <= last_row ->
       exists line,
         doc_lines !! Z.to_nat row = Some line /\
         new_entries !! Z.to_nat (row - start.1)
           = Some (divide_line line (WrappedDocument._width self))).
Proof.
  cbv zeta. intros Hs Ho He.
  eexists. eexists. split; [by apply refresh_range_table |].
  split; [reflexivity |]. split; [reflexivity |]. split; [reflexivity |].
  unfold line_count, Py.len.
  set (doc_lines := DocumentBase.lines (WrappedDocument._document self)).
  split.
  - rewrite length_fmap, length_take, length_drop. lia.
  - intros row Hrow.
    destruct (lookup_lt_is_Some_2 doc_lines (Z.to_nat row)) as [line Hline]; [lia |].
    exists line. split; [exact Hline |].
    rewrite list_lookup_fmap, lookup_take_lt by lia.
    rewrite lookup_drop.
    replace (Z.to_nat start.1 + Z.to_nat (row - start.1))%nat with (Z.to_nat row) by lia.
    by rewrite Hline.
Qed.

(** C9: [refresh_range] validates nothing.  Whatever the non-negative rows
    are, also at or beyond the line count or the table's length, it returns
    normally and leaves the document alone; the rows it reads are clamped to
    the document and the positions it splices at are clamped to the table. *)
Theorem refresh_range_never_raises self start old_end new_end :
  let doc_lines := DocumentBase.lines (WrappedDocument._document self) in
  let table := WrappedDocument._wrap_offsets self in
  let first_read := Z.min start.1 (line_count self) in
  let end_read := Z.min (new_end.1 + 2) (line_count self) in
  let first_cut := Z.min start.1 (Py.len table) in
  let end_cut := Z.min (Z.max start.1 old_end.1) (Py.len table) in
  0 <= start.1 -> 0 <= old_end.1 -> 0 <= new_end.1 ->
  exists self',
    WrappedDocument.refresh_range self start old_end new_end = Ok self' /\
    WrappedDocument._document self' = WrappedDocument._document self /\
    WrappedDocument._width self' = WrappedDocument._width self /\
    WrappedDocument._wrap_offsets self' =
      take (Z.to_nat first_cut) table
      ++ ((fun line => divide_line line (WrappedDocument._width self))
            <$> take (Z.to_nat (end_read - first_read))
                  (drop (Z.to_nat first_read) doc_lines))
      ++ drop (Z.to_nat end_cut) table.
Proof.
  cbv zeta. intros Hs Ho He.
  eexists. split; [by apply refresh_range_table |].
  split; [reflexivity |]. split; [reflexivity |]. simpl.
  unfold line_count, Py.len.
  set (doc_lines := DocumentBase.lines (WrappedDocument._document self)).
  set (table := WrappedDocument._wrap_offsets self).
  f_equal; [| f_equal].
  - destruct (Z.le_gt_cases start.1 (Z.of_nat (length table))).
    + by rewrite Z.min_l by lia.
    + rewrite Z.min_r by lia. rewrite !take_ge; [done | |]; lia.
  - f_equal.
    destruct (Z.le_gt_cases start.1 (Z.of_nat (length doc_lines))).
    + rewrite (Z.min_l start.1) by lia.
      destruct (Z.le_gt_cases (new_end.1 + 2) (Z.of_nat (length doc_lines))).
      * rewrite Z.min_l by lia. f_equal. lia.
      * rewrite Z.min_r by lia.
        rewrite !take_ge; [done | |]; rewrite length_drop; lia.
    + rewrite !drop_ge by lia. by rewrite !take_nil.
  - destruct (Z.le_gt_cases (Z.max start.1 old_end.1) (Z.of_nat (length table))).
    + by rewrite Z.min_l by lia.
    + rewrite Z.min_r by lia. rewrite !drop_ge; [done | |]; lia.
Qed.

(** X16: the length of the table after an edit that was matched by one
    [refresh_range] call: the edit replaced rows [start.row .. old_end.row]
    by rows [start.row .. new_end.row], the rows after it are as many as
    before, and the table had one entry per line before the edit.  The new
    table is always longer than the document, by one or by two. *)
Lemma refresh_range_length_after_edit self start old_end new_end :
  let old_line_count := Py.len (WrappedDocument._wrap_offsets self) in
  0 <= start.1 <= old_end.1 -> old_end.1 < old_line_count ->
  start.1 <= new_end.1 < line_count self ->
  line_count self - new_end.1 = old_line_count - old_end.1 ->
  exists self',
    WrappedDocument.refresh_range self start old_end new_end = Ok self' /\
    Py.len (WrappedDocument._wrap_offsets self')
      = line_count self' + Z.min 2 (line_count self' - new_end.1).
Proof.
  cbv zeta. intros Hs Ho He Hrest.
  eexists. split; [apply refresh_range_table; lia |].
  unfold line_count, Py.len in *. simpl.
  rewrite !length_app, length_fmap, !length_take, !length_drop. lia.
Qed.

(** An edit inside one row [r], reported as the documentation asks
    ([start], [old_end] and [new_end] all on row [r]): the entries of rows [r]
    and [r + 1] are inserted at [r] and every old entry from [r] on moves
    down behind them. *)
Lemma refresh_range_single_row self start old_end new_end :
  let table := WrappedDocument._wrap_offsets self in
  let r := Z.to_nat start.1 in
  0 <= start.1 -> old_end.1 = start.1 -> new_end.1 = start.1 ->
  exists self',
    WrappedDocument.refresh_range self start old_end new_end = Ok self' /\
    WrappedDocument._wrap_offsets self' =
      take r table
      ++ ((fun line => divide_line line (WrappedDocument._width self))
            <$> take 2 (drop r (DocumentBase.lines (WrappedDocument._document self))))
      ++ drop r table.
Proof.
  cbv zeta. intros Hs Ho He.
  eexists. split; [apply refresh_range_table; lia |]. simpl.
  rewrite Ho, He, Z.max_id.
  by replace (Z.to_nat (start.1 + 2) - Z.to_nat start.1)%nat with 2%nat by lia.
Qed.

End RefreshRange.

(** ** Materialising the wrapped lines *)

Section Materializer.
Implicit Types (self : WrappedDocument.t) (table : list (list Z))
  (chars : list ascii) (offsets : list Z).

Lemma string_of_list_ascii_app chars1 chars2 :
  string_of_list_ascii (chars1 ++ chars2)
  = String.append (string_of_list_ascii chars1) (string_of_list_ascii chars2).
Proof. induction chars1 as [| c chars1 IH]; simpl; [done | by rewrite IH]. Qed.

Lemma join_sections (sections : list (list ascii)) :
  String.concat "" (string_of_list_ascii <$> sections)
  = string_of_list_ascii (mjoin sections).
Proof.
  induction sections as [| s sections IH]; [reflexivity |].
  destruct sections as [| s' sections].
  - simpl. by rewrite app_nil_r.
  - change (String.concat "" (string_of_list_ascii <$> s :: s' :: sections))
      with (String.append (string_of_list_ascii s)
              (String.concat "" (string_of_list_ascii <$> s' :: sections))).
    rewrite IH. change (mjoin (s :: s' :: sections)) with (s ++ mjoin (s' :: sections)).
    by rewrite string_of_list_ascii_app.
Qed.

(** Two neighbouring slices make up the slice that spans both. *)
Lemma getslice_to_end chars lo :
  0 <= lo -> Py.getslice chars lo (Py.len chars) = drop (Z.to_nat lo) chars.
Proof.
  intros Hlo. unfold Py.len. rewrite getslice_nonneg by lia.
  apply take_ge. rewrite length_drop. lia.
Qed.

Lemma getslice_split chars lo mid :
  0 <= lo <= mid ->
  Py.getslice chars lo mid ++ drop (Z.to_nat mid) chars = drop (Z.to_nat lo) chars.
Proof.
  intros Hlo. rewrite getslice_nonneg by lia.
  replace (Z.to_nat mid) with (Z.to_nat lo + (Z.to_nat mid - Z.to_nat lo))%nat at 2 by lia.
  rewrite <- drop_drop. apply take_drop.
Qed.

(** Cutting at ascending points from [low] on gives back what lies after
    [low]. *)
Lemma sections_from chars : forall offsets low,
  0 <= low -> ascending_from low offsets = true ->
  mjoin ((fun '(first, last) => Py.getslice chars first last)
           <$> Py.zip (low :: offsets ++ [Py.len chars]) (offsets ++ [Py.len chars]))
  = drop (Z.to_nat low) chars.
Proof.
  induction offsets as [| o offsets IH]; intros low Hlow Hasc.
  - simpl. rewrite app_nil_r. by apply getslice_to_end.
  - simpl in Hasc. apply andb_true_iff in Hasc as [Hle Hrest].
    apply Z.leb_le in Hle.
    change (mjoin _) with
      (Py.getslice chars low o
       ++ mjoin ((fun '(first, last) => Py.getslice chars first last)
                   <$> Py.zip (o :: offsets ++ [Py.len chars])
                         (offsets ++ [Py.len chars]))).
    rewrite IH by (lia || done). apply getslice_split. lia.
Qed.

(** The sections of a line cut at ascending offsets concatenate to the
    line. *)
Lemma Text_divide_partition (text : string) offsets :
  ascending offsets = true ->
  String.concat "" (Text_divide text offsets) = text.
Proof.
  intros Hasc. unfold Text_divide, Py.str_slice, Py.str_len. cbv zeta.
  change (tail (0 :: offsets ++ [Py.len (list_ascii_of_string text)]))
    with (offsets ++ [Py.len (list_ascii_of_string text)]).
  rewrite (list_fmap_ext _
    (string_of_list_ascii ∘
       (fun '(first, last) => Py.getslice (list_ascii_of_string text) first last)))
    by (by intros i [first last] _).
  rewrite list_fmap_compose, join_sections.
  rewrite sections_from by (lia || done).
  apply string_of_list_ascii_of_string.
Qed.

(** The loop of [lines], entered at line [start]: it succeeds when the table
    has an entry for each of the lines, and pairs the lines with the
    entries. *)
Lemma lines_loop_ok table : forall (doc_lines : list string) (start : nat) wrapped_lines,
  (start + length doc_lines <= length table)%nat ->
  for_each
    (fun wrapped_lines '(line_index, line) =>
       offsets ← Py.getitem table line_index;
       let divided := Text_divide line offsets in
       Ok (wrapped_lines ++ [divided]))
    (Py.enumerate doc_lines (Z.of_nat start)) wrapped_lines
  = Ok (wrapped_lines ++ zip_with Text_divide doc_lines (drop start table)).
Proof.
  induction doc_lines as [| line doc_lines IH]; intros start wrapped_lines Hlen.
  - simpl. by rewrite app_nil_r.
  - simpl in Hlen. simpl.
    destruct (getitem_in_range table (Z.of_nat start)) as (entry & Hentry & Hget).
    { unfold Py.len. lia. }
    rewrite Nat2Z.id in Hentry. rewrite Hget. simpl.
    replace (Z.of_nat start + 1) with (Z.of_nat (S start)) by lia.
    rewrite IH by lia.
    rewrite (drop_S _ _ _ Hentry). simpl. by rewrite <- app_assoc.
Qed.

(** When the table runs out before the document does, the loop raises
    [IndexError]. *)
Lemma lines_loop_short table : forall (doc_lines : list string) (start : nat) wrapped_lines,
  (start <= length table < start + length doc_lines)%nat ->
  for_each
    (fun wrapped_lines '(line_index, line) =>
       offsets ← Py.getitem table line_index;
       let divided := Text_divide line offsets in
       Ok (wrapped_lines ++ [divided]))
    (Py.enumerate doc_lines (Z.of_nat start)) wrapped_lines
  = Raise IndexError.
Proof.
  induction doc_lines as [| line doc_lines IH]; intros start wrapped_lines Hlen.
  - simpl in Hlen. simpl. lia.
  - simpl in Hlen. simpl.
    destruct (Nat.le_gt_cases (length table) start) as [Hout | Hin].
    + rewrite getitem_at_len_or_beyond by (unfold Py.len; lia). reflexivity.
    + destruct (getitem_in_range table (Z.of_nat start)) as (entry & _ & Hget).
      { unfold Py.len. lia. }
      rewrite Hget. simpl.
      replace (Z.of_nat start + 1) with (Z.of_nat (S start)) by lia.
      apply IH. lia.
Qed.

(** C8: when every line of the document has a stored entry and the stored
    offsets are partition points (non-negative and ascending, as the
    splitter's contract has them), [lines] returns one list of sections per
    line, in order: the line cut at its stored offsets, whose concatenation
    is the line, with no character lost or repeated. *)
Theorem lines_partition self :
  let doc_lines := DocumentBase.lines (WrappedDocument._document self) in
  let table := WrappedDocument._wrap_offsets self in
  line_count self <= Py.len table ->
  Forall (fun offsets => ascending offsets = true) table ->
  exists wrapped_lines,
    WrappedDocument.lines self = Ok wrapped_lines /\
    length wrapped_lines = length doc_lines /\
    (forall (i : nat) line, doc_lines !! i = Some line ->
       exists offsets sections,
         table !! i = Some offsets /\
         wrapped_lines !! i = Some sections /\
         sections = Text_divide line offsets /\
         String.concat "" sections = line).
Proof.
  cbv zeta. unfold line_count, Py.len. intros Hlen Hasc.
  exists (zip_with Text_divide
            (DocumentBase.lines (WrappedDocument._document self))
            (WrappedDocument._wrap_offsets self)).
  split.
  { unfold WrappedDocument.lines.
    rewrite (lines_loop_ok _ _ 0%nat) by (simpl; lia). reflexivity. }
  split.
  { apply length_zip_with_l. lia. }
  intros i line Hline.
  destruct (lookup_lt_is_Some_2 (WrappedDocument._wrap_offsets self) i)
    as [offsets Hoffsets].
  { apply lookup_lt_Some in Hline. lia. }
  exists offsets, (Text_divide line offsets).
  split; [exact Hoffsets |].
  split; [by rewrite lookup_zip_with, Hline, Hoffsets |].
  split; [reflexivity |].
  apply Text_divide_partition.
  by apply (Forall_lookup_1 _ _ _ _ Hasc Hoffsets).
Qed.

(** C10: a fresh instance has an empty table whatever the document holds, so
    that reading [lines] of a non-empty document before any [wrap] raises
    [IndexError]. *)
Theorem lines_before_wrap (document : DocumentBase.t) (width : Z) :
  DocumentBase.lines document <> [] ->
  WrappedDocument._wrap_offsets (WrappedDocument.__init__ document width) = [] /\
  WrappedDocument.lines (WrappedDocument.__init__ document width) = Raise IndexError.
Proof.
  intros Hnonempty. split; [reflexivity |].
  unfold WrappedDocument.lines. simpl.
  apply (lines_loop_short [] _ 0%nat). simpl.
  destruct (DocumentBase.lines document); [done | simpl; lia].
Qed.

End Materializer.

(** ** The splitter's contract and the stored offsets *)

Section SplitterContract.
Context `{LineSplitter}.
Hypothesis divide_line_ascending :
  forall line width, ascending (divide_line line width) = true.
Implicit Types self : WrappedDocument.t.

Lemma wrap_ascending self self' :
  WrappedDocument.wrap self = Ok self' ->
  Forall (fun offsets => ascending offsets = true)
    (WrappedDocument._wrap_offsets self').
Proof.
  rewrite wrap_table. intros [= <-]. simpl.
  apply Forall_fmap, Forall_forall. intros line _. apply divide_line_ascending.
Qed.

Lemma refresh_range_ascending self start old_end new_end self' :
  0 <= start.1 -> 0 <= old_end.1 -> 0 <= new_end.1 ->
  Forall (fun offsets => ascending offsets = true)
    (WrappedDocument._wrap_offsets self) ->
  WrappedDocument.refresh_range self start old_end new_end = Ok self' ->
  Forall (fun offsets => ascending offsets = true)
    (WrappedDocument._wrap_offsets self').
Proof.
  intros Hs Ho He Hasc. rewrite refresh_range_table by done.
  intros [= <-]. simpl.
  apply Forall_app. split; [by apply Forall_take |].
  apply Forall_app. split; [| by apply Forall_drop].
  apply Forall_fmap, Forall_forall. intros line _. apply divide_line_ascending.
Qed.

End SplitterContract.

(** The splitter of the scenarios keeps the contract. *)
Lemma chop_offsets_ascending width : 0 < width ->
  forall (count : nat) first low,
    low <= first * width ->
    ascending_from low ((fun k => k * width) <$> seqZ first (Z.of_nat count)) = true.
Proof.
  intros Hwidth. induction count as [| count IH]; intros first low Hlow.
  - reflexivity.
  - rewrite seqZ_cons by lia.
    replace (Z.pred (Z.of_nat (S count))) with (Z.of_nat count) by lia.
    simpl. apply andb_true_iff. split; [lia |].
    apply IH. lia.
Qed.

Lemma chop_line_ascending text width : ascending (chop_line text width) = true.
Proof.
  unfold chop_line. destruct (Z.leb_spec width 0) as [Hle | Hgt]; [reflexivity |].
  set (count := (Py.str_len text - 1) `div` width).
  destruct (Z.le_gt_cases 0 count) as [Hpos | Hneg].
  - rewrite <- (Z2Nat.id count) by lia.
    apply chop_offsets_ascending; lia.
  - unfold seqZ. by replace (Z.to_nat count) with 0%nat by lia.
Qed.

(** ** The scenarios of the specification *)

(** The example of the specification: heights 3 and 1, total 4. *)
Example hello_wrap :
  @WrappedDocument.wrap ChopSplitter (WrappedDocument.__init__ (document hello_lines) 5)
  = Ok hello_wrapped.
Proof. reflexivity. Qed.

Example hello_offsets :
  visual_height (WrappedDocument._wrap_offsets hello_wrapped) = 4 /\
  WrappedDocument.offset_to_line_index hello_wrapped 0 = Ok 0 /\
  WrappedDocument.offset_to_line_index hello_wrapped 2 = Ok 0 /\
  WrappedDocument.offset_to_line_index hello_wrapped 3 = Ok 1 /\
  WrappedDocument.offset_to_line_index hello_wrapped 4 = Raise ValueError /\
  WrappedDocument.lines hello_wrapped
  = Ok [["hello"; " worl"; "d"]; ["foo"]]%string.
Proof. repeat split. Qed.

(** C1: the table has one entry per logical line after [wrap], but not
    after [refresh_range].  In the scenario of the specification the document
    has three lines after the newline was typed, and the matching
    [refresh_range] call leaves a table of five entries: rows 0 to 2 are
    computed afresh and inserted in front of the two old entries, none of
    which is removed. *)
Theorem refresh_range_table_outgrows_document :
  @WrappedDocument.wrap ChopSplitter (WrappedDocument.__init__ (document hello_lines) 5)
    = Ok hello_wrapped /\
  Py.len (WrappedDocument._wrap_offsets hello_wrapped) = line_count hello_wrapped /\
  exists self',
    @WrappedDocument.refresh_range ChopSplitter
      (WrappedDocument.document_edited (document hello_split_lines) hello_wrapped)
      (0, 5) (0, 5) (1, 0) = Ok self' /\
    WrappedDocument._wrap_offsets self' = [[]; [5]; []; [5; 10]; []] /\
    Py.len (WrappedDocument._wrap_offsets self') = 5 /\
    line_count self' = 3.
Proof.
  split; [reflexivity |]. split; [reflexivity |].
  eexists. split; [reflexivity |]. repeat split.
Qed.

(** C2: an edit inside row 0 that keeps the row count, followed by the
    matching [refresh_range] call, does not leave the other entries as they
    were: the entries of rows 0 and 1 are inserted in front of the old
    table, so the entry at index 2, the empty entry of ["bar"] before the
    call, is the old entry of row 0 after it. *)
Theorem refresh_range_single_row_edit_shifts_entries :
  @WrappedDocument.wrap ChopSplitter (WrappedDocument.__init__ (document three_lines) 5)
    = Ok three_wrapped /\
  exists self',
    @WrappedDocument.refresh_range ChopSplitter
      (WrappedDocument.document_edited (document three_lines_edited) three_wrapped)
      (0, 6) (0, 11) (0, 11) = Ok self' /\
    WrappedDocument._wrap_offsets three_wrapped !! 2%nat = Some [] /\
    WrappedDocument._wrap_offsets self' !! 2%nat = Some [5; 10] /\
    WrappedDocument._wrap_offsets self' = [[5; 10]; []; [5; 10]; []; []] /\
    line_count self' = 3.
Proof.
  split; [reflexivity |].
  eexists. split; [reflexivity |]. repeat split.
Qed.

(** ** The statements at work on the scenarios *)

Lemma refresh_range_recomputes_witness :
  (0 <= 0 /\ 0 <= 0 /\ 0 <= 1) /\
  exists self' new_entries,
    @WrappedDocument.refresh_range ChopSplitter
      (WrappedDocument.document_edited (document hello_split_lines) hello_wrapped)
      (0, 5) (0, 5) (1, 0)
    = Ok self' /\
    WrappedDocument._wrap_offsets self' = new_entries ++ [[5; 10]; []] /\
    Py.len new_entries = 3.
Proof.
  assert (Hs : 0 <= ((0, 5) : Location).1) by (simpl; lia).
  assert (He : 0 <= ((1, 0) : Location).1) by (simpl; lia).
  split; [simpl in *; lia |].
  destruct (@refresh_range_recomputes ChopSplitter
              (WrappedDocument.document_edited (document hello_split_lines) hello_wrapped)
              (0, 5) (0, 5) (1, 0) Hs Hs He)
    as (self' & new_entries & Hrun & Htable & _ & _ & Hlen & _).
  exists self', new_entries.
  split; [exact Hrun |]. split; [exact Htable | exact Hlen].
Defined.

Lemma offset_to_line_index_locates_witness :
  0 <= 3 < visual_height (WrappedDocument._wrap_offsets hello_wrapped) /\
  exists i : nat,
    WrappedDocument.offset_to_line_index hello_wrapped 3 = Ok (Z.of_nat i) /\
    height_before (WrappedDocument._wrap_offsets hello_wrapped) i <= 3
      < height_before (WrappedDocument._wrap_offsets hello_wrapped) (S i).
Proof.
  assert (Hoff : 0 <= 3 < visual_height (WrappedDocument._wrap_offsets hello_wrapped))
    by (vm_compute; split; [discriminate | reflexivity]).
  split; [exact Hoff |].
  destruct (offset_to_line_index_locates hello_wrapped 3 Hoff)
    as (i & Hrun & _ & Hbounds & _).
  exists i. split; [exact Hrun | exact Hbounds].
Defined.

Lemma lines_partition_witness :
  (line_count hello_wrapped <= Py.len (WrappedDocument._wrap_offsets hello_wrapped) /\
   Forall (fun offsets => ascending offsets = true)
     (WrappedDocument._wrap_offsets hello_wrapped)) /\
  exists wrapped_lines,
    WrappedDocument.lines hello_wrapped = Ok wrapped_lines /\
    forall (i : nat) line, hello_lines !! i = Some line ->
      exists sections,
        wrapped_lines !! i = Some sections /\ String.concat "" sections = line.
Proof.
  assert (Hlen : line_count hello_wrapped
                 <= Py.len (WrappedDocument._wrap_offsets hello_wrapped))
    by (vm_compute; discriminate).
  assert (Hasc : Forall (fun offsets => ascending offsets = true)
                   (WrappedDocument._wrap_offsets hello_wrapped))
    by (repeat constructor).
  split; [split; [exact Hlen | exact Hasc] |].
  destruct (lines_partition hello_wrapped Hlen Hasc) as (wrapped_lines & Hrun & _ & Hall).
  exists wrapped_lines. split; [exact Hrun |].
  intros i line Hline.
  destruct (Hall i line Hline) as (offsets & sections & _ & Hsections & _ & Hjoin).
  exists sections. split; [exact Hsections | exact Hjoin].
Defined.

Lemma refresh_range_never_raises_witness :
  (0 <= 7 /\ 0 <= 9 /\ 0 <= 8) /\
  exists self',
    @WrappedDocument.refresh_range ChopSplitter hello_wrapped (7, 0) (9, 0) (8, 0)
      = Ok self' /\
    WrappedDocument._wrap_offsets self' = [[5; 10]; []].
Proof.
  assert (Hs : 0 <= ((7, 0) : Location).1) by (simpl; lia).
  assert (Ho : 0 <= ((9, 0) : Location).1) by (simpl; lia).
  assert (He : 0 <= ((8, 0) : Location).1) by (simpl; lia).
  split; [simpl in *; lia |].
  destruct (@refresh_range_never_raises ChopSplitter hello_wrapped
              (7, 0) (9, 0) (8, 0) Hs Ho He) as (self' & Hrun & _ & _ & Htable).
  exists self'. split; [exact Hrun | exact Htable].
Defined.

Lemma lines_before_wrap_witness :
  DocumentBase.lines (document hello_lines) <> [] /\
  WrappedDocument._wrap_offsets (WrappedDocument.__init__ (document hello_lines) 5) = [] /\
  WrappedDocument.lines (WrappedDocument.__init__ (document hello_lines) 5)
    = Raise IndexError.
Proof.
  assert (Hnonempty : DocumentBase.lines (document hello_lines) <> [])
    by (simpl; discriminate).
  split; [exact Hnonempty |].
  exact (lines_before_wrap (document hello_lines) 5 Hnonempty).
Defined.

(** ** More on the offset locator *)

Section OffsetLocatorMore.
Implicit Types (self : WrappedDocument.t) (table : list (list Z)).

(** Every line is at least one visual row high, so the prefix sum at [k]
    is at least [k]. *)
Lemma height_before_ge_index table k :
  (k <= length table)%nat -> Z.of_nat k <= height_before table k.
Proof.
  revert k. induction table as [| entry table IH]; intros k Hk; simpl in Hk.
  - replace k with 0%nat by lia. rewrite height_before_0. lia.
  - destruct k as [| k]; [rewrite height_before_0; lia |].
    rewrite height_before_cons. specialize (IH k).
    pose proof (line_height_pos entry). lia.
Qed.

Lemma height_before_unwrapped table k :
  Forall (fun line_offsets => line_offsets = []) table ->
  (k <= length table)%nat -> height_before table k = Z.of_nat k.
Proof.
  intros Hflat. revert k. induction Hflat as [| entry table Hentry _ IH]; intros k Hk;
    simpl in Hk.
  - replace k with 0%nat by lia. reflexivity.
  - destruct k as [| k]; [reflexivity |].
    rewrite height_before_cons, IH by lia. subst entry.
    unfold line_height, Py.len. simpl. lia.
Qed.

(** Two brackets that hold the same offset are the same bracket. *)
Lemma height_bracket_unique table offset i j :
  height_before table i <= offset < height_before table (S i) ->
  height_before table j <= offset < height_before table (S j) ->
  i = j.
Proof.
  intros Hi Hj.
  destruct (Nat.lt_trichotomy i j) as [Hlt | [Heq | Hgt]]; [| exact Heq |].
  - pose proof (height_before_mono table (S i) j). lia.
  - pose proof (height_before_mono table (S j) i). lia.
Qed.

(** What a returned index tells about the offset. *)
Lemma offset_lookup_inv self offset line_index :
  WrappedDocument.offset_to_line_index self offset = Ok line_index ->
  exists i : nat,
    line_index = Z.of_nat i /\
    (i < length (WrappedDocument._wrap_offsets self))%nat /\
    height_before (WrappedDocument._wrap_offsets self) i <= offset
      < height_before (WrappedDocument._wrap_offsets self) (S i).
Proof.
  unfold WrappedDocument.offset_to_line_index.
  destruct (Z.ltb_spec offset 0) as [Hneg | Hpos]; [discriminate |].
  destruct (Z.lt_ge_cases offset (visual_height (WrappedDocument._wrap_offsets self)))
    as [Hin | Hout].
  - destruct (offset_scan_found (WrappedDocument._wrap_offsets self) 0 0 offset)
      as (i & Hrun & Hlen & Hbounds); [lia |].
    rewrite Hrun, Z.add_0_l. intros [= <-]. exists i.
    split; [reflexivity |]. split; [exact Hlen | lia].
  - rewrite offset_scan_exhausted by lia. discriminate.
Qed.

(** An offset inside the bracket of line [i] is answered by [i]. *)
Lemma offset_lookup_intro self offset (i : nat) :
  (i < length (WrappedDocument._wrap_offsets self))%nat ->
  height_before (WrappedDocument._wrap_offsets self) i <= offset
    < height_before (WrappedDocument._wrap_offsets self) (S i) ->
  WrappedDocument.offset_to_line_index self offset = Ok (Z.of_nat i).
Proof.
  intros Hlen Hbounds.
  set (table := WrappedDocument._wrap_offsets self) in *.
  pose proof (visual_height_nonneg (take i table)) as Hnonneg.
  fold (height_before table i) in Hnonneg.
  pose proof (height_before_mono table (S i) (length table)) as Hmono.
  rewrite height_before_all in Hmono.
  destruct (offset_to_line_index_in_range self offset) as [j Hj].
  { fold table. lia. }
  destruct (offset_lookup_inv self offset _ Hj) as (j' & Hjj' & _ & Hbounds').
  fold table in Hbounds'.
  rewrite Hj, Hjj'. do 2 f_equal.
  exact (height_bracket_unique table offset j' i Hbounds' Hbounds).
Qed.

(** X1: every visual row of a line leads back to that line: for a line [i]
    of the table, an offset from the first visual row of the line up to its
    last one is answered by [i]; in particular the first and the last
    visual row of the line. *)
Theorem offset_to_line_index_covers_line self (i : nat) :
  let table := WrappedDocument._wrap_offsets self in
  (i < length table)%nat ->
  (forall offset,
     height_before table i <= offset < height_before table (S i) ->
     WrappedDocument.offset_to_line_index self offset = Ok (Z.of_nat i)) /\
  WrappedDocument.offset_to_line_index self (height_before table i) = Ok (Z.of_nat i) /\
  WrappedDocument.offset_to_line_index self (height_before table (S i) - 1)
    = Ok (Z.of_nat i).
Proof.
  cbv zeta. intros Hlen.
  pose proof (height_before_step (WrappedDocument._wrap_offsets self) i Hlen).
  split; [intros offset Hoff; by apply offset_lookup_intro |].
  split; apply offset_lookup_intro; (done || lia).
Qed.

(** X2: the answer never decreases with the offset. *)
Theorem offset_to_line_index_monotone self offset1 offset2 line1 line2 :
  offset1 <= offset2 ->
  WrappedDocument.offset_to_line_index self offset1 = Ok line1 ->
  WrappedDocument.offset_to_line_index self offset2 = Ok line2 ->
  line1 <= line2.
Proof.
  intros Hle H1 H2.
  destruct (offset_lookup_inv _ _ _ H1) as (i1 & -> & _ & Hb1).
  destruct (offset_lookup_inv _ _ _ H2) as (i2 & -> & _ & Hb2).
  destruct (Nat.le_gt_cases i1 i2) as [? | Hgt]; [lia |].
  pose proof (height_before_mono (WrappedDocument._wrap_offsets self) (S i2) i1). lia.
Qed.

(** X3: no line is skipped: going one visual row down stays on the line or
    moves to the very next one. *)
Theorem offset_to_line_index_next_row self offset line1 line2 :
  WrappedDocument.offset_to_line_index self offset = Ok line1 ->
  WrappedDocument.offset_to_line_index self (offset + 1) = Ok line2 ->
  line2 = line1 \/ line2 = line1 + 1.
Proof.
  intros H1 H2.
  destruct (offset_lookup_inv _ _ _ H1) as (i1 & -> & Hlen1 & Hb1).
  destruct (offset_lookup_inv _ _ _ H2) as (i2 & -> & Hlen2 & Hb2).
  set (table := WrappedDocument._wrap_offsets self) in *.
  assert (Hlow : (i1 <= i2)%nat).
  { destruct (Nat.le_gt_cases i1 i2) as [? | Hgt]; [done |].
    pose proof (height_before_mono table (S i2) i1). lia. }
  assert (Hhigh : (i2 <= S i1)%nat).
  { destruct (Nat.le_gt_cases i2 (S i1)) as [? | Hgt]; [done |].
    pose proof (height_before_mono table (S (S i1)) i2).
    pose proof (height_before_step table (S i1)). lia. }
  lia.
Qed.

(** X4: the line index never exceeds the visual offset, and it is the
    offset itself when no line of the table is wrapped. *)
Theorem offset_to_line_index_at_most_offset self offset :
  let table := WrappedDocument._wrap_offsets self in
  (forall line_index,
     WrappedDocument.offset_to_line_index self offset = Ok line_index ->
     0 <= line_index <= offset /\ line_index < Py.len table) /\
  (Forall (fun line_offsets => line_offsets = []) table ->
   0 <= offset < Py.len table ->
   WrappedDocument.offset_to_line_index self offset = Ok offset).
Proof.
  cbv zeta. split.
  - intros line_index Hrun.
    destruct (offset_lookup_inv _ _ _ Hrun) as (i & -> & Hlen & Hb).
    pose proof (height_before_ge_index (WrappedDocument._wrap_offsets self) i).
    unfold Py.len. lia.
  - unfold Py.len. intros Hflat Hoff.
    rewrite <- (Z2Nat.id offset) at 2 by lia.
    apply offset_lookup_intro; [lia |].
    rewrite !height_before_unwrapped by (done || lia). lia.
Qed.

(** X5: an index returned by [offset_to_line_index] is always accepted by
    [get_offsets], and the offset falls on one of the visual rows of the
    entry it returns. *)
Theorem offset_to_line_index_then_get_offsets self offset line_index :
  WrappedDocument.offset_to_line_index self offset = Ok line_index ->
  exists entry (i : nat),
    line_index = Z.of_nat i /\
    WrappedDocument.get_offsets self line_index = Ok entry /\
    WrappedDocument._wrap_offsets self !! i = Some entry /\
    0 <= offset - height_before (WrappedDocument._wrap_offsets self) i
      < line_height entry.
Proof.
  intros Hrun.
  destruct (offset_lookup_inv _ _ _ Hrun) as (i & -> & Hlen & Hb).
  destruct (get_offsets_in_range self (Z.of_nat i)) as (entry & Hentry & Hget).
  { unfold Py.len. lia. }
  rewrite Nat2Z.id in Hentry.
  exists entry, i. split; [reflexivity |]. split; [exact Hget |].
  split; [exact Hentry |].
  assert (Hstep : height_before (WrappedDocument._wrap_offsets self) (S i)
                  = height_before (WrappedDocument._wrap_offsets self) i
                    + line_height entry).
  { unfold height_before. rewrite (take_S_r _ _ _ Hentry).
    generalize (take i (WrappedDocument._wrap_offsets self)).
    intros prefix. induction prefix as [| e prefix IH]; simpl; [lia |].
    simpl in IH. lia. }
  lia.
Qed.

End OffsetLocatorMore.

(** ** More on the full wrap and on the wrapped lines *)

Section WrapMore.
Context `{LineSplitter}.
Implicit Types self : WrappedDocument.t.

(** X6: after [wrap], [get_offsets] gives for every line of the document
    what the splitter answers for that line at the instance's width, and
    raises for every other index. *)
Theorem wrap_then_get_offsets self :
  exists self',
    WrappedDocument.wrap self = Ok self' /\
    (forall (i : nat) line,
       DocumentBase.lines (WrappedDocument._document self) !! i = Some line ->
       WrappedDocument.get_offsets self' (Z.of_nat i)
         = Ok (divide_line line (WrappedDocument._width self))) /\
    (forall line_index,
       line_index < 0 \/ line_count self <= line_index ->
       WrappedDocument.get_offsets self' line_index = Raise ValueError).
Proof.
  eexists. split; [apply wrap_table |]. split.
  - intros i line Hline.
    destruct (get_offsets_in_range
                (WrappedDocument.set_wrap_offsets
                   ((fun line => divide_line line (WrappedDocument._width self))
                      <$> DocumentBase.lines (WrappedDocument._document self)) self)
                (Z.of_nat i)) as (entry & Hentry & Hget).
    { unfold Py.len. simpl. rewrite length_fmap.
      apply lookup_lt_Some in Hline. lia. }
    simpl in Hentry. rewrite Nat2Z.id, list_lookup_fmap, Hline in Hentry.
    simpl in Hentry. rewrite Hget. congruence.
  - intros line_index Hout. apply get_offsets_out_of_range.
    unfold line_count, Py.len in *. simpl. rewrite length_fmap. exact Hout.
Qed.

(** X7: after [wrap], reading [lines] succeeds whatever the splitter
    answers: it has one entry per line of the document, the line cut at
    the offsets the splitter gave for it. *)
Theorem wrap_then_lines self :
  exists self' wrapped_lines,
    WrappedDocument.wrap self = Ok self' /\
    WrappedDocument.lines self' = Ok wrapped_lines /\
    length wrapped_lines = length (DocumentBase.lines (WrappedDocument._document self)) /\
    forall (i : nat) line,
      DocumentBase.lines (WrappedDocument._document self) !! i = Some line ->
      wrapped_lines !! i
        = Some (Text_divide line (divide_line line (WrappedDocument._width self))).
Proof.
  set (doc_lines := DocumentBase.lines (WrappedDocument._document self)).
  set (table := (fun line => divide_line line (WrappedDocument._width self)) <$> doc_lines).
  exists (WrappedDocument.set_wrap_offsets table self),
    (zip_with Text_divide doc_lines table).
  split; [apply wrap_table |]. split.
  { unfold WrappedDocument.lines. simpl. fold doc_lines.
    rewrite (lines_loop_ok _ _ 0%nat) by (subst table; rewrite length_fmap; simpl; lia).
    reflexivity. }
  split.
  { apply length_zip_with_l. subst table. rewrite length_fmap. lia. }
  intros i line Hline. subst table.
  by rewrite lookup_zip_with, Hline, list_lookup_fmap, Hline.
Qed.

(** X8: a full [wrap] does not look at the table it replaces: after any
    [refresh_range] call with non-negative rows, [wrap] gives the state that
    [wrap] gives without that call, with one entry per line again. *)
Theorem wrap_after_refresh_range self start old_end new_end :
  0 <= start.1 -> 0 <= old_end.1 -> 0 <= new_end.1 ->
  exists refreshed wrapped,
    WrappedDocument.refresh_range self start old_end new_end = Ok refreshed /\
    WrappedDocument.wrap refreshed = Ok wrapped /\
    WrappedDocument.wrap self = Ok wrapped /\
    Py.len (WrappedDocument._wrap_offsets wrapped) = line_count wrapped.
Proof.
  intros Hs Ho He.
  eexists. eexists. split; [by apply refresh_range_table |].
  split; [apply wrap_table |]. split; [rewrite wrap_table; reflexivity |].
  unfold line_count, Py.len. simpl. by rewrite length_fmap.
Qed.

End WrapMore.

Section LinesMore.
Implicit Types self : WrappedDocument.t.

(** X9: [lines] raises exactly when the table has fewer entries than the
    document has lines, and then it is [IndexError]; otherwise it returns
    one entry per line of the document. *)
Theorem lines_raises_iff_table_short self :
  let doc_lines := DocumentBase.lines (WrappedDocument._document self) in
  let table := WrappedDocument._wrap_offsets self in
  (WrappedDocument.lines self = Raise IndexError <-> Py.len table < line_count self) /\
  ((exists wrapped_lines,
      WrappedDocument.lines self = Ok wrapped_lines /\
      length wrapped_lines = length doc_lines)
   <-> line_count self <= Py.len table) /\
  WrappedDocument.lines self <> Raise ValueError.
Proof.
  cbv zeta. unfold line_count, Py.len.
  set (doc_lines := DocumentBase.lines (WrappedDocument._document self)).
  set (table := WrappedDocument._wrap_offsets self).
  destruct (Z.lt_ge_cases (Z.of_nat (length table)) (Z.of_nat (length doc_lines)))
    as [Hshort | Hlong].
  - assert (Hrun : WrappedDocument.lines self = Raise IndexError).
    { unfold WrappedDocument.lines. apply (lines_loop_short _ _ 0%nat).
      fold doc_lines table. simpl. lia. }
    rewrite Hrun. split; [done |]. split; [| done].
    split; [intros (w & Hw & _); discriminate | lia].
  - assert (Hrun : WrappedDocument.lines self = Ok (zip_with Text_divide doc_lines table)).
    { unfold WrappedDocument.lines.
      rewrite (lines_loop_ok _ _ 0%nat) by (fold doc_lines table; simpl; lia).
      reflexivity. }
    rewrite Hrun. split; [split; [discriminate | lia] |]. split; [| done].
    split; [done |]. intros _. eexists. split; [reflexivity |].
    apply length_zip_with_l. lia.
Qed.

Lemma zip_with_surplus {A B C : Type} (f : A -> B -> C) (l : list A) (k extra : list B) :
  (length l <= length k)%nat -> zip_with f l (k ++ extra) = zip_with f l k.
Proof.
  revert k. induction l as [| x l IH]; intros k Hlen; [reflexivity |].
  destruct k as [| y k]; simpl in Hlen; [lia |].
  simpl. rewrite IH by lia. reflexivity.
Qed.

(** X10: [lines] reads the table by document line index only: when every
    line of the document has an entry, entries stored behind them (such as
    the old entries [refresh_range] leaves at the end of the table) do not
    show in the result. *)
Theorem lines_ignores_surplus_entries self (surplus : list (list Z)) :
  line_count self <= Py.len (WrappedDocument._wrap_offsets self) ->
  WrappedDocument.lines
    (WrappedDocument.set_wrap_offsets (WrappedDocument._wrap_offsets self ++ surplus) self)
  = WrappedDocument.lines self.
Proof.
  unfold line_count, Py.len. intros Hlen.
  unfold WrappedDocument.lines. simpl.
  rewrite !(lines_loop_ok _ _ 0%nat) by (rewrite ?length_app; simpl; lia).
  rewrite !drop_0, zip_with_surplus by lia. reflexivity.
Qed.

(** X11: a fresh instance answers no query: before any [wrap], every
    offset and every line index is refused with [ValueError], and [lines]
    succeeds only for a document without lines. *)
Theorem fresh_instance_queries (document : DocumentBase.t) (width : Z) :
  let self := WrappedDocument.__init__ document width in
  (forall offset, WrappedDocument.offset_to_line_index self offset = Raise ValueError) /\
  (forall line_index, WrappedDocument.get_offsets self line_index = Raise ValueError) /\
  (WrappedDocument.lines self = Ok [] <-> DocumentBase.lines document = []).
Proof.
  cbv zeta. split; [| split].
  - intros offset. unfold WrappedDocument.offset_to_line_index. simpl.
    by destruct (offset <? 0).
  - intros line_index. apply get_offsets_out_of_range. unfold Py.len. simpl. lia.
  - unfold WrappedDocument.lines. simpl.
    destruct (DocumentBase.lines document) as [| line rest]; [done |].
    rewrite (lines_loop_short [] (line :: rest) 0%nat) by (simpl; lia).
    split; discriminate.
Qed.

End LinesMore.

(** ** More on the incremental rewrap *)

Section RefreshRangeMore.
Context `{LineSplitter}.
Implicit Types (self : WrappedDocument.t) (start old_end new_end : Location).

(** X12: [refresh_range] leaves the rows above the edit alone: an entry
    stored at an index below [start.row] is stored there afterwards, and
    [get_offsets] answers the same for it. *)
Theorem refresh_range_keeps_rows_before self start old_end new_end (i : nat) entry :
  0 <= start.1 -> 0 <= old_end.1 -> 0 <= new_end.1 ->
  Z.of_nat i < start.1 ->
  WrappedDocument._wrap_offsets self !! i = Some entry ->
  exists self',
    WrappedDocument.refresh_range self start old_end new_end = Ok self' /\
    WrappedDocument._wrap_offsets self' !! i = Some entry /\
    WrappedDocument.get_offsets self' (Z.of_nat i) = Ok entry /\
    WrappedDocument.get_offsets self (Z.of_nat i) = Ok entry.
Proof.
  intros Hs Ho He Hi Hentry.
  pose proof (lookup_lt_Some _ _ _ Hentry) as Hlen.
  eexists. split; [by apply refresh_range_table |].
  assert (Hkept :
    (take (Z.to_nat start.1) (WrappedDocument._wrap_offsets self)
     ++ ((fun line => divide_line line (WrappedDocument._width self))
           <$> take (Z.to_nat (new_end.1 + 2) - Z.to_nat start.1)
                 (drop (Z.to_nat start.1)
                    (DocumentBase.lines (WrappedDocument._document self))))
     ++ drop (Z.to_nat (Z.max start.1 old_end.1))
          (WrappedDocument._wrap_offsets self)) !! i = Some entry).
  { rewrite lookup_app_l by (rewrite length_take; lia).
    rewrite lookup_take_lt by lia. exact Hentry. }
  split; [exact Hkept |]. split.
  - match goal with
    | |- WrappedDocument.get_offsets ?s _ = _ =>
        destruct (get_offsets_in_range s (Z.of_nat i)) as (e & He' & Hget)
    end.
    { unfold Py.len. apply lookup_lt_Some in Hkept. simpl. lia. }
    simpl in He'. rewrite Nat2Z.id, Hkept in He'. rewrite Hget. congruence.
  - destruct (get_offsets_in_range self (Z.of_nat i)) as (e & He' & Hget).
    { unfold Py.len. lia. }
    rewrite Nat2Z.id, Hentry in He'. rewrite Hget. congruence.
Qed.

(** X13: the rows [refresh_range] recomputes are right afterwards: when
    [start.row] is a row of the table (or its end), [get_offsets] gives for
    every row from [start.row] to [min(new_end.row + 1, line_count - 1)] the
    splitter's answer for the document's current line. *)
Theorem refresh_range_then_get_offsets self start old_end new_end row :
  let last_row := Z.min (new_end.1 + 1) (line_count self - 1) in
  0 <= start.1 <= Py.len (WrappedDocument._wrap_offsets self) ->
  0 <= old_end.1 -> 0 <= new_end.1 ->
  start.1 <= row <= last_row ->
  exists self' line,
    WrappedDocument.refresh_range self start old_end new_end = Ok self' /\
    DocumentBase.lines (WrappedDocument._document self) !! Z.to_nat row = Some line /\
    WrappedDocument.get_offsets self' row
      = Ok (divide_line line (WrappedDocument._width self)).
Proof.
  cbv zeta. unfold line_count, Py.len. intros Hs Ho He Hrow.
  set (doc_lines := DocumentBase.lines (WrappedDocument._document self)) in *.
  set (table := WrappedDocument._wrap_offsets self) in *.
  destruct (lookup_lt_is_Some_2 doc_lines (Z.to_nat row)) as [line Hline]; [lia |].
  eexists. exists line. split; [apply refresh_range_table; lia |].
  split; [exact Hline |].
  fold doc_lines table.
  match goal with
  | |- WrappedDocument.get_offsets ?s _ = _ =>
      assert (Hstored : WrappedDocument._wrap_offsets s !! Z.to_nat row
                        = Some (divide_line line (WrappedDocument._width self)))
  end.
  { simpl.
    rewrite lookup_app_r by (rewrite length_take; lia).
    rewrite length_take.
    replace (Z.to_nat row - Z.to_nat start.1 `min` length table)%nat
      with (Z.to_nat (row - start.1)) by lia.
    rewrite lookup_app_l by (rewrite length_fmap, length_take, length_drop; lia).
    rewrite list_lookup_fmap, lookup_take_lt by lia.
    rewrite lookup_drop.
    replace (Z.to_nat start.1 + Z.to_nat (row - start.1))%nat with (Z.to_nat row) by lia.
    by rewrite Hline. }
  match goal with
  | |- WrappedDocument.get_offsets ?s _ = _ =>
      destruct (get_offsets_in_range s row) as (e & He' & Hget)
  end.
  { unfold Py.len. apply lookup_lt_Some in Hstored. lia. }
  rewrite Hstored in He'. rewrite Hget. congruence.
Qed.

(** X14: a [refresh_range] call that starts at row 0, whose [old_end.row]
    is at or beyond the end of the table and whose [new_end.row + 2] is at or
    beyond the end of the document does what [wrap] does. *)
Theorem refresh_range_everything_is_wrap self start old_end new_end :
  start.1 = 0 ->
  Py.len (WrappedDocument._wrap_offsets self) <= old_end.1 ->
  0 <= new_end.1 -> line_count self <= new_end.1 + 2 ->
  WrappedDocument.refresh_range self start old_end new_end = WrappedDocument.wrap self.
Proof.
  unfold line_count, Py.len. intros Hs Ho He Hall.
  rewrite refresh_range_table, wrap_table by lia.
  rewrite Hs. change (Z.to_nat 0) with 0%nat.
  rewrite take_0, drop_0, Nat.sub_0_r.
  rewrite take_ge by lia. rewrite drop_ge by lia.
  by rewrite app_nil_r.
Qed.

End RefreshRangeMore.

Section StoredOffsets.
Context `{LineSplitter}.
Hypothesis divide_line_ascending :
  forall line width, ascending (divide_line line width) = true.
Implicit Types self : WrappedDocument.t.

(** X15: the stored offsets are partition points whenever the splitter's
    answers are: [wrap] leaves only non-negative ascending entries, and
    [refresh_range] keeps a table of such entries one. *)
Theorem stored_offsets_stay_ascending self :
  (forall self', WrappedDocument.wrap self = Ok self' ->
     Forall (fun offsets => ascending offsets = true)
       (WrappedDocument._wrap_offsets self')) /\
  (forall start old_end new_end self',
     0 <= start.1 -> 0 <= old_end.1 -> 0 <= new_end.1 ->
     Forall (fun offsets => ascending offsets = true)
       (WrappedDocument._wrap_offsets self) ->
     WrappedDocument.refresh_range self start old_end new_end = Ok self' ->
     Forall (fun offsets => ascending offsets = true)
       (WrappedDocument._wrap_offsets self')).
Proof.
  split.
  - intros self'. by apply wrap_ascending.
  - intros start old_end new_end self'. by apply refresh_range_ascending.
Qed.

End StoredOffsets.

(** ** The further statements at work on the scenarios *)

Lemma offset_to_line_index_covers_line_witness :
  (0 < length (WrappedDocument._wrap_offsets hello_wrapped))%nat /\
  WrappedDocument.offset_to_line_index hello_wrapped
    (height_before (WrappedDocument._wrap_offsets hello_wrapped) 1 - 1) = Ok 0.
Proof.
  assert (Hlen : (0 < length (WrappedDocument._wrap_offsets hello_wrapped))%nat)
    by (simpl; lia).
  split; [exact Hlen |].
  exact (proj2 (proj2 (offset_to_line_index_covers_line hello_wrapped 0 Hlen))).
Defined.

Lemma offset_to_line_index_monotone_witness :
  (1 <= 3 /\
   WrappedDocument.offset_to_line_index hello_wrapped 1 = Ok 0 /\
   WrappedDocument.offset_to_line_index hello_wrapped 3 = Ok 1) /\
  0 <= 1.
Proof.
  assert (Hle : 1 <= 3) by lia.
  assert (H1 : WrappedDocument.offset_to_line_index hello_wrapped 1 = Ok 0)
    by reflexivity.
  assert (H3 : WrappedDocument.offset_to_line_index hello_wrapped 3 = Ok 1)
    by reflexivity.
  split; [split; [exact Hle | split; [exact H1 | exact H3]] |].
  exact (offset_to_line_index_monotone hello_wrapped 1 3 0 1 Hle H1 H3).
Defined.

Lemma offset_to_line_index_next_row_witness :
  (WrappedDocument.offset_to_line_index hello_wrapped 2 = Ok 0 /\
   WrappedDocument.offset_to_line_index hello_wrapped (2 + 1) = Ok 1) /\
  (1 = 0 \/ 1 = 0 + 1).
Proof.
  assert (H2 : WrappedDocument.offset_to_line_index hello_wrapped 2 = Ok 0)
    by reflexivity.
  assert (H3 : WrappedDocument.offset_to_line_index hello_wrapped (2 + 1) = Ok 1)
    by reflexivity.
  split; [split; [exact H2 | exact H3] |].
  exact (offset_to_line_index_next_row hello_wrapped 2 0 1 H2 H3).
Defined.

Lemma offset_to_line_index_then_get_offsets_witness :
  WrappedDocument.offset_to_line_index hello_wrapped 2 = Ok 0 /\
  exists entry, WrappedDocument.get_offsets hello_wrapped 0 = Ok entry.
Proof.
  assert (H2 : WrappedDocument.offset_to_line_index hello_wrapped 2 = Ok 0)
    by reflexivity.
  split; [exact H2 |].
  destruct (offset_to_line_index_then_get_offsets hello_wrapped 2 0 H2)
    as (entry & _ & _ & Hget & _).
  exists entry. exact Hget.
Defined.

Lemma wrap_after_refresh_range_witness :
  (0 <= 0 /\ 0 <= 0 /\ 0 <= 1) /\
  exists refreshed wrapped,
    @WrappedDocument.refresh_range ChopSplitter
      (WrappedDocument.document_edited (document hello_split_lines) hello_wrapped)
      (0, 5) (0, 5) (1, 0) = Ok refreshed /\
    @WrappedDocument.wrap ChopSplitter refreshed = Ok wrapped /\
    Py.len (WrappedDocument._wrap_offsets wrapped) = line_count wrapped.
Proof.
  assert (Hs : 0 <= ((0, 5) : Location).1) by (simpl; lia).
  assert (He : 0 <= ((1, 0) : Location).1) by (simpl; lia).
  split; [simpl in *; lia |].
  destruct (@wrap_after_refresh_range ChopSplitter
              (WrappedDocument.document_edited (document hello_split_lines) hello_wrapped)
              (0, 5) (0, 5) (1, 0) Hs Hs He)
    as (refreshed & wrapped & Hrefresh & Hwrap & _ & Hlen).
  exists refreshed, wrapped. split; [exact Hrefresh |]. split; [exact Hwrap | exact Hlen].
Defined.

Lemma lines_ignores_surplus_entries_witness :
  line_count hello_wrapped <= Py.len (WrappedDocument._wrap_offsets hello_wrapped) /\
  WrappedDocument.lines
    (WrappedDocument.set_wrap_offsets
       (WrappedDocument._wrap_offsets hello_wrapped ++ [[1; 2; 3]]) hello_wrapped)
  = WrappedDocument.lines hello_wrapped.
Proof.
  assert (Hlen : line_count hello_wrapped
                 <= Py.len (WrappedDocument._wrap_offsets hello_wrapped))
    by (vm_compute; discriminate).
  split; [exact Hlen |].
  exact (lines_ignores_surplus_entries hello_wrapped [[1; 2; 3]] Hlen).
Defined.

Lemma refresh_range_keeps_rows_before_witness :
  ((0 <= 1 /\ 0 <= 1 /\ 0 <= 1) /\ Z.of_nat 0 < 1 /\
   WrappedDocument._wrap_offsets three_wrapped !! 0%nat = Some [5; 10]) /\
  exists self',
    @WrappedDocument.refresh_range ChopSplitter three_wrapped (1, 0) (1, 3) (1, 3)
      = Ok self' /\
    WrappedDocument.get_offsets self' 0 = Ok [5; 10].
Proof.
  assert (Hs : 0 <= ((1, 0) : Location).1) by (simpl; lia).
  assert (He : 0 <= ((1, 3) : Location).1) by (simpl; lia).
  assert (Hi : Z.of_nat 0 < ((1, 0) : Location).1) by (simpl; lia).
  assert (Hentry : WrappedDocument._wrap_offsets three_wrapped !! 0%nat = Some [5; 10])
    by reflexivity.
  split; [split; [simpl in *; lia | split; [exact Hi | exact Hentry]] |].
  destruct (@refresh_range_keeps_rows_before ChopSplitter three_wrapped
              (1, 0) (1, 3) (1, 3) 0%nat [5; 10] Hs He He Hi Hentry)
    as (self' & Hrun & _ & Hget & _).
  exists self'. split; [exact Hrun | exact Hget].
Defined.

Lemma refresh_range_then_get_offsets_witness :
  (0 <= 0 <= Py.len (WrappedDocument._wrap_offsets hello_wrapped) /\
   0 <= 0 /\ 0 <= 1 /\ 0 <= 1 <= Z.min (1 + 1) (3 - 1)) /\
  exists self',
    @WrappedDocument.refresh_range ChopSplitter
      (WrappedDocument.document_edited (document hello_split_lines) hello_wrapped)
      (0, 5) (0, 5) (1, 0) = Ok self' /\
    WrappedDocument.get_offsets self' 1 = Ok [5].
Proof.
  assert (Hs : 0 <= ((0, 5) : Location).1
               <= Py.len (WrappedDocument._wrap_offsets
                            (WrappedDocument.document_edited
                               (document hello_split_lines) hello_wrapped)))
    by (vm_compute; split; discriminate).
  assert (Ho : 0 <= ((0, 5) : Location).1) by (simpl; lia).
  assert (He : 0 <= ((1, 0) : Location).1) by (simpl; lia).
  assert (Hrow : ((0, 5) : Location).1 <= 1
                 <= Z.min (((1, 0) : Location).1 + 1)
                      (line_count (WrappedDocument.document_edited
                                     (document hello_split_lines) hello_wrapped) - 1))
    by (vm_compute; split; discriminate).
  split; [vm_compute; repeat split; discriminate |].
  destruct (@refresh_range_then_get_offsets ChopSplitter
              (WrappedDocument.document_edited (document hello_split_lines) hello_wrapped)
              (0, 5) (0, 5) (1, 0) 1 Hs Ho He Hrow)
    as (self' & line & Hrun & Hline & Hget).
  exists self'. split; [exact Hrun |].
  injection Hline as <-. exact Hget.
Defined.

Lemma refresh_range_everything_is_wrap_witness :
  (0 = 0 /\ Py.len (WrappedDocument._wrap_offsets hello_wrapped) <= 2 /\
   0 <= 1 /\ line_count hello_wrapped <= 1 + 2) /\
  @WrappedDocument.refresh_range ChopSplitter hello_wrapped (0, 0) (2, 0) (1, 0)
  = @WrappedDocument.wrap ChopSplitter hello_wrapped.
Proof.
  assert (Hs : ((0, 0) : Location).1 = 0) by reflexivity.
  assert (Ho : Py.len (WrappedDocument._wrap_offsets hello_wrapped)
               <= ((2, 0) : Location).1) by (vm_compute; discriminate).
  assert (He : 0 <= ((1, 0) : Location).1) by (simpl; lia).
  assert (Hall : line_count hello_wrapped <= ((1, 0) : Location).1 + 2)
    by (vm_compute; discriminate).
  split; [split; [reflexivity | split; [exact Ho | split; [exact He | exact Hall]]] |].
  exact (@refresh_range_everything_is_wrap ChopSplitter hello_wrapped
           (0, 0) (2, 0) (1, 0) Hs Ho He Hall).
Defined.

Lemma stored_offsets_stay_ascending_witness :
  (forall line width, ascending (chop_line line width) = true) /\
  forall self',
    @WrappedDocument.wrap ChopSplitter
      (WrappedDocument.__init__ (document hello_lines) 5) = Ok self' ->
    Forall (fun offsets => ascending offsets = true)
      (WrappedDocument._wrap_offsets self').
Proof.
  split; [exact chop_line_ascending |].
  exact (proj1 (@stored_offsets_stay_ascending ChopSplitter chop_line_ascending
                  (WrappedDocument.__init__ (document hello_lines) 5))).
Defined.

Lemma refresh_range_length_after_edit_witness :
  (0 <= 0 <= 0 /\ 0 < 2 /\ 0 <= 1 < 3 /\ 3 - 1 = 2 - 0) /\
  exists self',
    @WrappedDocument.refresh_range ChopSplitter
      (WrappedDocument.document_edited (document hello_split_lines) hello_wrapped)
      (0, 5) (0, 5) (1, 0) = Ok self' /\
    Py.len (WrappedDocument._wrap_offsets self') = line_count self' + 2.
Proof.
  split; [lia |].
  assert (Hs : 0 <= ((0, 5) : Location).1 <= ((0, 5) : Location).1) by (simpl; lia).
  assert (Ho : ((0, 5) : Location).1
               < Py.len (WrappedDocument._wrap_offsets
                           (WrappedDocument.document_edited
                              (document hello_split_lines) hello_wrapped)))
    by (vm_compute; reflexivity).
  assert (He : ((0, 5) : Location).1 <= ((1, 0) : Location).1
               < line_count (WrappedDocument.document_edited
                               (document hello_split_lines) hello_wrapped))
    by (vm_compute; split; [discriminate | reflexivity]).
  assert (Hrest : line_count (WrappedDocument.document_edited
                                (document hello_split_lines) hello_wrapped)
                  - ((1, 0) : Location).1
                  = Py.len (WrappedDocument._wrap_offsets
                              (WrappedDocument.document_edited
                                 (document hello_split_lines) hello_wrapped))
                    - ((0, 5) : Location).1)
    by reflexivity.
  destruct (@refresh_range_length_after_edit ChopSplitter
              (WrappedDocument.document_edited (document hello_split_lines) hello_wrapped)
              (0, 5) (0, 5) (1, 0) Hs Ho He Hrest) as (self' & Hrun & Hlen).
  exists self'. split; [exact Hrun |].
  rewrite Hlen.
  assert (Hdoc : line_count self' = 3).
  { vm_compute in Hrun. injection Hrun as <-. reflexivity. }
  rewrite Hdoc. reflexivity.
Defined.
